(** * notify/slack.go: a Slack incoming-webhook client

    A shallow embedding of [src/slack.go] and the properties of its
    message construction, JSON wire form and delivery routine.

    Go strings are byte strings, modelled as [string]; [int], [int64] and
    [time.Duration] values are modelled as [Z]; a Go [error] is
    [option Err], with [None] for [nil]. *)

From Stdlib Require Import ZArith List String Ascii Bool Lia.
From Stdlib Require Import Numbers.DecimalString Numbers.DecimalZ.
From Stdlib Require Import Numbers.DecimalPos Numbers.DecimalFacts.
Import ListNotations.

#[local] Set Warnings "-register-all".

Open Scope string_scope.
Open Scope Z_scope.
Open Scope list_scope.

(** ** Errors *)

(** The error values the routine can see.  Only [json.Marshal]'s complaint
    about a [json.Number] is produced by code with a fixed shape; every
    other error comes from a collaborator (URL parsing, the transport, the
    body reader) and is identified by its text. *)
Inductive Err : Type :=
| InvalidNumberLiteral (lit : string)
| External (msg : string).

Definition error : Type := option Err.

(** ** strconv.FormatInt(x, 10) *)

Definition FormatInt (x : Z) : string :=
  NilEmpty.string_of_int (Z.to_int x).

(** ** time *)

(** [time.Duration] counts nanoseconds. *)
Definition Second : Z := 1000000000.

(** [src/slack.go:17] *)
Definition DefaultSlackTimeout : Z := 5 * Second.

(** ** Data model, [src/slack.go:20-71] *)

(** [client] is the pointer to the retrying transport: modelled by its
    address, since sends only ever call through it. *)
Record SlackClient : Type := mkSlackClient {
  client : nat;
  WebHookURL : string;
  UserName : string;
  Channel : string;
  TimeOut : Z
}.

Record SimpleSlackRequest : Type := mkSimpleSlackRequest {
  sr_Text : string;
  sr_IconEmoji : string
}.

Record SlackJobNotification : Type := mkSlackJobNotification {
  job_Color : string;
  job_IconEmoji : string;
  job_Details : string;
  job_Text : string
}.

Record Attachment : Type := mkAttachment {
  Color : string;
  Fallback : string;
  CallbackID : string;
  ID : Z;
  AuthorID : string;
  AuthorName : string;
  AuthorSubname : string;
  AuthorLink : string;
  AuthorIcon : string;
  Title : string;
  TitleLink : string;
  Pretext : string;
  att_Text : string;
  ImageURL : string;
  ThumbURL : string;
  MarkdownIn : list string;
  TS : string
}.

Record SlackMessage : Type := mkSlackMessage {
  Username : string;
  IconEmoji : string;
  msg_Channel : string;
  msg_Text : string;
  Attachments : list Attachment
}.

(** ** JSON values and encoding/json *)

(** The wire form as a syntax tree.  An object keeps its members in the
    order they are written; a number carries its literal; a string node
    carries the Go string it encodes.  How a string is spelled as bytes
    (quoting, escapes, the replacement of bytes that are not valid UTF-8 by
    U+FFFD) is left to the encoder and is not part of the tree: two
    distinct trees may be written as the same bytes. *)
Inductive json : Type :=
| JNull
| JString (s : string)
| JNumber (lit : string)
| JArray (elems : list json)
| JObject (members : list (string * json)).

Definition is_digit (c : ascii) : bool :=
  (48 <=? nat_of_ascii c)%nat && (nat_of_ascii c <=? 57)%nat.

Fixpoint skip_digits (s : string) : string :=
  match s with
  | String c s' => if is_digit c then skip_digits s' else s
  | EmptyString => s
  end.

Definition ascii_is (c : ascii) (n : nat) : bool := (nat_of_ascii c =? n)%nat.

(** The integer part of a number literal: a lone [0], or a non-zero digit
    and more digits. Returns what follows it. *)
Definition number_int_part (s : string) : option string :=
  match s with
  | String c s' =>
      if ascii_is c 48 then Some s'
      else if is_digit c then Some (skip_digits s')
      else None
  | EmptyString => None
  end.

(** An optional fraction: [.] and at least one digit. *)
Definition number_frac_part (s : string) : string :=
  match s with
  | String c (String d s') =>
      if ascii_is c 46 && is_digit d then skip_digits s' else s
  | _ => s
  end.

(** An optional exponent: [e] or [E], an optional sign, then digits. [None]
    when the sign ends the literal. *)
Definition number_exp_part (s : string) : option string :=
  match s with
  | String c (String d s') =>
      if ascii_is c 101 || ascii_is c 69 then
        if ascii_is d 43 || ascii_is d 45 then
          match s' with
          | EmptyString => None
          | _ => Some (skip_digits s')
          end
        else Some (skip_digits (String d s'))
      else Some s
  | _ => Some s
  end.

(** encoding/json's check of a [json.Number]: the JSON number grammar. *)
Definition isValidNumber (s : string) : bool :=
  match s with
  | EmptyString => false
  | String c s' =>
      let unsigned := if ascii_is c 45 then s' else s in
      match number_int_part unsigned with
      | None => false
      | Some rest =>
          match number_exp_part (number_frac_part rest) with
          | Some EmptyString => true
          | _ => false
          end
      end
  end.

Definition is_empty_string (s : string) : bool :=
  match s with EmptyString => true | _ => false end.

(** One struct field with tag [`json:"key,omitempty"`], by the field's Go
    type.  [omitempty] drops a string of length 0, an integer equal to 0
    and a slice of length 0. *)
Definition field_string (key s : string) : list (string * json) :=
  if is_empty_string s then [] else [(key, JString s)].

Definition field_int (key : string) (n : Z) : list (string * json) :=
  if n =? 0 then [] else [(key, JNumber (FormatInt n))].

Definition field_strings (key : string) (l : list string) : list (string * json) :=
  match l with
  | [] => []
  | _ => [(key, JArray (map JString l))]
  end.

(** A [json.Number] is a string kind: dropped when empty, written as a bare
    literal otherwise. *)
Definition field_number (key lit : string) : list (string * json) :=
  if is_empty_string lit then [] else [(key, JNumber lit)].

Definition field_array (key : string) (l : list json) : list (string * json) :=
  match l with
  | [] => []
  | _ => [(key, JArray l)]
  end.

(** The members of an [Attachment], in declaration order
    ([src/slack.go:52-71]). *)
Definition Attachment_members (a : Attachment) : list (string * json) :=
  field_string "color" (Color a) ++
  field_string "fallback" (Fallback a) ++
  field_string "callback_id" (CallbackID a) ++
  field_int "id" (ID a) ++
  field_string "author_id" (AuthorID a) ++
  field_string "author_name" (AuthorName a) ++
  field_string "author_subname" (AuthorSubname a) ++
  field_string "author_link" (AuthorLink a) ++
  field_string "author_icon" (AuthorIcon a) ++
  field_string "title" (Title a) ++
  field_string "title_link" (TitleLink a) ++
  field_string "pretext" (Pretext a) ++
  field_string "text" (att_Text a) ++
  field_string "image_url" (ImageURL a) ++
  field_string "thumb_url" (ThumbURL a) ++
  field_strings "mrkdwn_in" (MarkdownIn a) ++
  field_number "ts" (TS a).

(** Encoding an attachment fails only on a non-empty [TS] that is not a
    number literal. *)
Definition marshal_Attachment (a : Attachment) : Err + json :=
  if negb (is_empty_string (TS a)) && negb (isValidNumber (TS a))
  then inl (InvalidNumberLiteral (TS a))
  else inr (JObject (Attachment_members a)).

(** Elements are encoded left to right; the first failure aborts. *)
Fixpoint marshal_Attachments (l : list Attachment) : Err + list json :=
  match l with
  | [] => inr []
  | a :: l' =>
      match marshal_Attachment a with
      | inl e => inl e
      | inr j =>
          match marshal_Attachments l' with
          | inl e => inl e
          | inr js => inr (j :: js)
          end
      end
  end.

(** [json.Marshal] of a [*SlackMessage] ([src/slack.go:43-49]), up to the
    concrete spelling of strings: which members are written, in which
    order, and from which field. *)
Definition json_Marshal (m : SlackMessage) : Err + json :=
  match marshal_Attachments (Attachments m) with
  | inl e => inl e
  | inr atts =>
      inr (JObject
             (field_string "username" (Username m) ++
              field_string "icon_emoji" (IconEmoji m) ++
              field_string "channel" (msg_Channel m) ++
              field_string "text" (msg_Text m) ++
              field_array "attachments" atts))
  end.

(** ** The world outside the client *)

(** An HTTP request as the routine builds it: the body is the encoded
    message. *)
Record Request : Type := mkRequest {
  Method : string;
  URL : string;
  Header : list (string * string);
  req_Body : json
}.

(** What the routine uses of an [*http.Response]: the outcome of
    [ioutil.ReadAll(resp.Body)] and of [resp.Body.Close()]. *)
Record Response : Type := mkResponse {
  Body_ReadAll : Err + string;
  Body_Close : error
}.

(** What the routine does that can be seen from outside, in order. *)
Inductive Event : Type :=
| EvNow (unix : Z)
| EvSetTimeOut (d : Z)
| EvDo (req : Request)
| EvReadAll
| EvClose.

(** The collaborators.  An instant is the number of events that happened
    before it; the wall clock and the transport may answer differently at
    different instants. *)
Record World : Type := mkWorld {
  clock : nat -> Z;
  url_error : string -> error;
  Do : nat -> Request -> Err + Response
}.

(** The client object behind the [sc] pointer, and the history so far. *)
Record State : Type := mkState {
  sc : SlackClient;
  trace : list Event
}.

Definition log (e : Event) (st : State) : State :=
  mkState (sc st) (trace st ++ [e]).

Definition instant (st : State) : nat := List.length (trace st).

(** [time.Now().Unix()] *)
Definition time_Now_Unix (w : World) (st : State) : Z * State :=
  let t := clock w (instant st) in (t, log (EvNow t) st).

Definition MethodPost : string := "POST".

(** [retryablehttp.NewRequest]: fails when the URL does not parse. *)
Definition NewRequest (w : World) (method url : string) (body : json)
  : Err + Request :=
  match url_error w url with
  | Some e => inl e
  | None => inr (mkRequest method url [] body)
  end.

Definition Header_Add (req : Request) (key value : string) : Request :=
  mkRequest (Method req) (URL req) (Header req ++ [(key, value)]) (req_Body req).

(** [sc.TimeOut = d] *)
Definition set_TimeOut (d : Z) (st : State) : State :=
  let c := sc st in
  log (EvSetTimeOut d)
      (mkState (mkSlackClient (client c) (WebHookURL c) (UserName c) (Channel c) d)
               (trace st)).

(** [src/slack.go:140-142] *)
Definition default_TimeOut (st : State) : State :=
  if TimeOut (sc st) =? 0 then set_TimeOut DefaultSlackTimeout st else st.

Section Delivery.

(** The success marker the response body is compared with: a package
    constant declared outside [slack.go]. *)
Variable ok : string.

(** [src/slack.go:130-161].  The deferred [Close] is registered only after
    the body was read without error, and runs when the function returns. *)
Definition sendHTTPRequest (w : World) (st : State) (slackRequest : SlackMessage)
  : error * State :=
  match json_Marshal slackRequest with
  | inl err => (Some err, st)
  | inr slackBody =>
      match NewRequest w MethodPost (WebHookURL (sc st)) slackBody with
      | inl err => (Some err, st)
      | inr req =>
          let req := Header_Add req "Content-Type" "application/json" in
          let st := default_TimeOut st in
          match Do w (instant st) req with
          | inl err => (Some err, log (EvDo req) st)
          | inr resp =>
              let st := log (EvDo req) st in
              match Body_ReadAll resp with
              | inl err => (Some err, log EvReadAll st)
              | inr buf =>
                  let st := log EvReadAll st in
                  let err : error := None in
                  if negb (String.eqb buf ok)
                  then (err, log EvClose st)
                  else (None, log EvClose st)
              end
          end
      end
  end.

(** The message of [SendSlackNotification], [src/slack.go:76-81]. *)
Definition simple_slackRequest (c : SlackClient) (sr : SimpleSlackRequest)
  : SlackMessage :=
  {| msg_Text := sr_Text sr;
     Username := UserName c;
     IconEmoji := sr_IconEmoji sr;
     msg_Channel := Channel c;
     Attachments := [] |}.

(** [src/slack.go:75-83] *)
Definition SendSlackNotification (w : World) (st : State) (sr : SimpleSlackRequest)
  : error * State :=
  sendHTTPRequest w st (simple_slackRequest (sc st) sr).

(** The attachment of [SendJobNotification], [src/slack.go:87-91], given
    the clock reading [now]. *)
Definition job_attachment (job : SlackJobNotification) (now : Z) : Attachment :=
  {| Color := job_Color job;
     Fallback := ""; CallbackID := ""; ID := 0; AuthorID := "";
     AuthorName := ""; AuthorSubname := ""; AuthorLink := "";
     AuthorIcon := ""; Title := ""; TitleLink := ""; Pretext := "";
     att_Text := job_Details job;
     ImageURL := ""; ThumbURL := ""; MarkdownIn := [];
     TS := FormatInt now |}.

(** The message of [SendJobNotification], [src/slack.go:92-98]. *)
Definition job_slackRequest (c : SlackClient) (job : SlackJobNotification) (now : Z)
  : SlackMessage :=
  {| msg_Text := job_Text job;
     Username := UserName c;
     IconEmoji := job_IconEmoji job;
     msg_Channel := Channel c;
     Attachments := [job_attachment job now] |}.

(** [src/slack.go:86-100] *)
Definition SendJobNotification (w : World) (st : State) (job : SlackJobNotification)
  : error * State :=
  let '(now, st) := time_Now_Unix w st in
  sendHTTPRequest w st (job_slackRequest (sc st) job now).

(** The notification of [funcName], [src/slack.go:118-126]. *)
Definition funcName_sjn (color message : string) (options : list string)
  : SlackJobNotification :=
  let emoji := ":hammer_and_wrench" in
  let emoji := match options with
               | o :: _ => o
               | [] => emoji
               end in
  {| job_Color := color;
     job_IconEmoji := emoji;
     job_Details := message;
     job_Text := "" |}.

(** [src/slack.go:117-128] *)
Definition funcName (w : World) (st : State) (color message : string)
    (options : list string) : error * State :=
  SendJobNotification w st (funcName_sjn color message options).

(** [src/slack.go:103-115] *)
Definition SendError (w : World) (st : State) (message : string)
    (options : list string) : error * State :=
  funcName w st "danger" message options.

Definition SendInfo (w : World) (st : State) (message : string)
    (options : list string) : error * State :=
  funcName w st "good" message options.

Definition SendWarning (w : World) (st : State) (message : string)
    (options : list string) : error * State :=
  funcName w st "warning" message options.

(** A call of one of the public send methods. *)
Inductive Call : Type :=
| CallSlackNotification (sr : SimpleSlackRequest)
| CallJobNotification (job : SlackJobNotification)
| CallError (message : string) (options : list string)
| CallInfo (message : string) (options : list string)
| CallWarning (message : string) (options : list string).

Definition send (w : World) (st : State) (c : Call) : error * State :=
  match c with
  | CallSlackNotification sr => SendSlackNotification w st sr
  | CallJobNotification job => SendJobNotification w st job
  | CallError message options => SendError w st message options
  | CallInfo message options => SendInfo w st message options
  | CallWarning message options => SendWarning w st message options
  end.

(** The message a call hands to the delivery routine, given the clock
    reading it takes (if it takes one). *)
Definition message_of (c : SlackClient) (now : Z) (call : Call) : SlackMessage :=
  match call with
  | CallSlackNotification sr => simple_slackRequest c sr
  | CallJobNotification job => job_slackRequest c job now
  | CallError message options =>
      job_slackRequest c (funcName_sjn "danger" message options) now
  | CallInfo message options =>
      job_slackRequest c (funcName_sjn "good" message options) now
  | CallWarning message options =>
      job_slackRequest c (funcName_sjn "warning" message options) now
  end.

(** The state in which a call reaches the delivery routine: the job
    notifications read the clock first. *)
Definition prepared (w : World) (st : State) (call : Call) : State :=
  match call with
  | CallSlackNotification _ => st
  | _ => snd (time_Now_Unix w st)
  end.

(** A client's life: one send after the other on the same object. *)
Fixpoint run (w : World) (st : State) (calls : list Call) : State :=
  match calls with
  | [] => st
  | c :: calls' => run w (snd (send w st c)) calls'
  end.

End Delivery.

(** ** The declared fields, as the data model lists them *)

(** The wire names and values of the fields of a message and of an
    attachment, kept apart from the encoder so that what the encoder writes
    can be compared with which fields are set. *)

(** A field value by its Go kind. *)
Inductive gvalue : Type :=
| GString (s : string)
| GInt (n : Z)
| GStrings (l : list string)
| GNumber (lit : string)
| GAttachments (l : list Attachment).

(** Empty or unset: the empty string, zero, the empty slice. *)
Definition is_unset (v : gvalue) : bool :=
  match v with
  | GString s => is_empty_string s
  | GInt n => n =? 0
  | GStrings l => match l with [] => true | _ => false end
  | GNumber lit => is_empty_string lit
  | GAttachments l => match l with [] => true | _ => false end
  end.

Definition Attachment_fields (a : Attachment) : list (string * gvalue) :=
  [ ("color", GString (Color a));
    ("fallback", GString (Fallback a));
    ("callback_id", GString (CallbackID a));
    ("id", GInt (ID a));
    ("author_id", GString (AuthorID a));
    ("author_name", GString (AuthorName a));
    ("author_subname", GString (AuthorSubname a));
    ("author_link", GString (AuthorLink a));
    ("author_icon", GString (AuthorIcon a));
    ("title", GString (Title a));
    ("title_link", GString (TitleLink a));
    ("pretext", GString (Pretext a));
    ("text", GString (att_Text a));
    ("image_url", GString (ImageURL a));
    ("thumb_url", GString (ThumbURL a));
    ("mrkdwn_in", GStrings (MarkdownIn a));
    ("ts", GNumber (TS a)) ].

Definition SlackMessage_fields (m : SlackMessage) : list (string * gvalue) :=
  [ ("username", GString (Username m));
    ("icon_emoji", GString (IconEmoji m));
    ("channel", GString (msg_Channel m));
    ("text", GString (msg_Text m));
    ("attachments", GAttachments (Attachments m)) ].

(** The keys of the fields that are set, in declaration order. *)
Definition set_keys (fields : list (string * gvalue)) : list string :=
  map fst (filter (fun f => negb (is_unset (snd f))) fields).

(** A member value that stands for nothing: [null], an empty string, an
    empty array or an empty number literal. *)
Definition placeholder (v : json) : bool :=
  match v with
  | JNull => true
  | JString s => is_empty_string s
  | JNumber lit => is_empty_string lit
  | JArray l => match l with [] => true | _ => false end
  | JObject _ => false
  end.

Definition no_placeholders (members : list (string * json)) : bool :=
  forallb (fun kv => negb (placeholder (snd kv))) members.

(** Reading a decimal literal back. *)
Definition ParseInt (s : string) : option Z :=
  option_map Z.of_int (NilEmpty.int_of_string s).

(** ** Observations on histories and clients *)

(** The values written to [TimeOut] in a history. *)
Fixpoint TimeOut_writes (evs : list Event) : list Z :=
  match evs with
  | [] => []
  | EvSetTimeOut d :: evs' => d :: TimeOut_writes evs'
  | _ :: evs' => TimeOut_writes evs'
  end.

(** Whether the response body was released in a history. *)
Fixpoint closed (evs : list Event) : bool :=
  match evs with
  | [] => false
  | EvClose :: _ => true
  | _ :: evs' => closed evs'
  end.

(** An emoji shortcode is written [:name:]. *)
Definition is_shortcode (s : string) : bool :=
  match s with
  | String c rest =>
      ascii_is c 58 &&
      match get (String.length rest - 1) rest with
      | Some d => ascii_is d 58
      | None => false
      end
  | EmptyString => false
  end.

(** The fields other than [TimeOut]. *)
Definition same_configuration (a b : SlackClient) : Prop :=
  client a = client b /\ WebHookURL a = WebHookURL b /\
  UserName a = UserName b /\ Channel a = Channel b.

(** How [TimeOut] may move between two states of the client, given the
    values written to it in between: not at all without a write, or from
    zero to the default with the one write of the default. *)
Definition TimeOut_step (a b : SlackClient) (writes : list Z) : Prop :=
  if TimeOut a =? 0
  then (TimeOut b = 0 /\ writes = []) \/
       (TimeOut b = DefaultSlackTimeout /\ writes = [DefaultSlackTimeout])
  else TimeOut b = TimeOut a /\ writes = [].

(** The four stages before the comparison, as the routine runs them. *)
Inductive exchange (w : World) (st : State) (m : SlackMessage)
  : Request -> Response -> string -> Prop :=
| exchange_intro body req resp buf :
    json_Marshal m = inr body ->
    NewRequest w MethodPost (WebHookURL (sc st)) body = inr req ->
    Do w (instant (default_TimeOut st))
       (Header_Add req "Content-Type" "application/json") = inr resp ->
    Body_ReadAll resp = inr buf ->
    exchange w st m (Header_Add req "Content-Type" "application/json") resp buf.

(** A message is delivered when the four stages succeed and the body read
    is the success marker: the webhook acknowledged it. *)
Definition delivered (ok : string) (w : World) (st : State) (m : SlackMessage)
  : Prop :=
  exists req resp, exchange w st m req resp ok.

(** [json.Marshal] succeeds exactly when every timestamp that is set is a
    number literal. *)
Definition TS_ok (a : Attachment) : bool :=
  is_empty_string (TS a) || isValidNumber (TS a).

(** ** Concrete worlds and inputs *)

Definition clock0 (i : nat) : Z := 1700000000 + Z.of_nat i.

(** A transport that answers every request with the same body outcome. *)
Definition world_answering (body : Err + string) : World :=
  mkWorld clock0 (fun _ => None) (fun _ _ => inr (mkResponse body None)).

(** A transport that fails every request with the same error. *)
Definition world_failing (e : Err) : World :=
  mkWorld clock0 (fun _ => None) (fun _ _ => inl e).

Definition client0 : SlackClient :=
  mkSlackClient 1 "https://hooks.slack.com/services/T000/B000/XXXX"
                "notify" "#ops" 0.

Definition st0 : State := mkState client0 [].

Definition job0 : SlackJobNotification :=
  mkSlackJobNotification "good" ":rocket:" "build 42 passed" "nightly build".

Definition sr0 : SimpleSlackRequest :=
  mkSimpleSlackRequest "hello" ":wave:".

(** ** Requests, new events and members *)

(** The request the routine submits for an encoded body
    ([src/slack.go:135-139]). *)
Definition request_of (c : SlackClient) (body : json) : Request :=
  Header_Add (mkRequest MethodPost (WebHookURL c) [] body)
             "Content-Type" "application/json".

(** The events added to a history that held [n] events. *)
Definition events_since (n : nat) (st' : State) : list Event :=
  skipn n (trace st').

(** The requests submitted in a history, in order. *)
Fixpoint submitted (evs : list Event) : list Request :=
  match evs with
  | [] => []
  | EvDo req :: evs' => req :: submitted evs'
  | _ :: evs' => submitted evs'
  end.

(** The client once its timeout is resolved. *)
Definition resolved (c : SlackClient) : SlackClient :=
  mkSlackClient (client c) (WebHookURL c) (UserName c) (Channel c)
                (if TimeOut c =? 0 then DefaultSlackTimeout else TimeOut c).


(** The events a job notification adds before it reaches the delivery
    routine: the one reading of the clock. *)
Definition clock_events (w : World) (st : State) (call : Call) : list Event :=
  match call with
  | CallSlackNotification _ => []
  | _ => [EvNow (clock w (instant st))]
  end.

(** * Properties *)

(** ** Decimal literals *)

Lemma ParseInt_FormatInt (x : Z) : ParseInt (FormatInt x) = Some x.
Proof.
  unfold ParseInt, FormatInt.
  rewrite NilEmpty.isi. simpl. now rewrite DecimalZ.of_to.
Qed.

Lemma FormatInt_inj (x y : Z) : FormatInt x = FormatInt y -> x = y.
Proof.
  intro H.
  assert (E : ParseInt (FormatInt x) = ParseInt (FormatInt y)) by now rewrite H.
  rewrite !ParseInt_FormatInt in E. congruence.
Qed.

Lemma skip_digits_uint (d : Decimal.uint) :
  skip_digits (NilEmpty.string_of_uint d) = "".
Proof. induction d; simpl; auto. Qed.

Lemma to_uint_head (p : positive) :
  Decimal.nzhead (Pos.to_uint p) = Pos.to_uint p.
Proof.
  pose proof (DecimalZ.to_of (Z.to_int (Z.pos p))) as H.
  rewrite DecimalZ.of_to in H. simpl in H.
  injection H as H.
  pose proof (DecimalPos.Unsigned.to_uint_nonzero p) as NZ.
  unfold Decimal.unorm in H.
  destruct (Decimal.nzhead (Pos.to_uint p)) eqn:E; try (symmetry; exact H).
  congruence.
Qed.

(** A literal that starts with a non-zero digit and goes on with digits. *)
Ltac digits_literal :=
  simpl NilEmpty.string_of_uint; unfold isValidNumber; simpl;
  rewrite skip_digits_uint; reflexivity.

Lemma to_uint_cases (p : positive) (P : Decimal.uint -> Prop) :
  (forall u, P (Decimal.D1 u)) -> (forall u, P (Decimal.D2 u)) ->
  (forall u, P (Decimal.D3 u)) -> (forall u, P (Decimal.D4 u)) ->
  (forall u, P (Decimal.D5 u)) -> (forall u, P (Decimal.D6 u)) ->
  (forall u, P (Decimal.D7 u)) -> (forall u, P (Decimal.D8 u)) ->
  (forall u, P (Decimal.D9 u)) ->
  P (Pos.to_uint p).
Proof.
  intros.
  pose proof (to_uint_head p) as Hhead.
  pose proof (DecimalPos.Unsigned.to_uint_nonnil p) as NN.
  destruct (Pos.to_uint p) eqn:E; auto; try congruence.
  exfalso. eapply DecimalFacts.nzhead_nonzero. exact Hhead.
Qed.

Lemma FormatInt_valid (x : Z) : isValidNumber (FormatInt x) = true.
Proof.
  destruct x as [|p|p]; unfold FormatInt; simpl Z.to_int;
    simpl NilEmpty.string_of_int.
  - reflexivity.
  - apply (to_uint_cases p
             (fun d => isValidNumber (NilEmpty.string_of_uint d) = true));
      intro u; digits_literal.
  - apply (to_uint_cases p
             (fun d => isValidNumber (String "-" (NilEmpty.string_of_uint d)) = true));
      intro u; digits_literal.
Qed.

Lemma FormatInt_nonempty (x : Z) : is_empty_string (FormatInt x) = false.
Proof.
  pose proof (FormatInt_valid x) as H.
  destruct (FormatInt x); [discriminate H | reflexivity].
Qed.

(** ** The wire form *)

Lemma set_keys_cons (k : string) (v : gvalue) (fs : list (string * gvalue)) :
  set_keys ((k, v) :: fs) = (if is_unset v then [] else [k]) ++ set_keys fs.
Proof. unfold set_keys; simpl. now destruct (is_unset v). Qed.

Lemma keys_field_string (k s : string) :
  map fst (field_string k s) = if is_unset (GString s) then [] else [k].
Proof. unfold field_string; simpl. now destruct (is_empty_string s). Qed.

Lemma keys_field_int (k : string) (n : Z) :
  map fst (field_int k n) = if is_unset (GInt n) then [] else [k].
Proof. unfold field_int; simpl. now destruct (n =? 0). Qed.

Lemma keys_field_strings (k : string) (l : list string) :
  map fst (field_strings k l) = if is_unset (GStrings l) then [] else [k].
Proof. now destruct l. Qed.

Lemma keys_field_number (k lit : string) :
  map fst (field_number k lit) = if is_unset (GNumber lit) then [] else [k].
Proof. unfold field_number; simpl. now destruct (is_empty_string lit). Qed.

Lemma keys_field_array (k : string) (l : list Attachment) (js : list json) :
  List.length js = List.length l ->
  map fst (field_array k js) = if is_unset (GAttachments l) then [] else [k].
Proof. destruct l, js; simpl; intro H; congruence. Qed.

Lemma no_placeholders_app (a b : list (string * json)) :
  no_placeholders (a ++ b) = no_placeholders a && no_placeholders b.
Proof. apply forallb_app. Qed.

Lemma no_placeholders_field_string (k s : string) :
  no_placeholders (field_string k s) = true.
Proof. unfold field_string. now destruct s. Qed.

Lemma no_placeholders_field_int (k : string) (n : Z) :
  no_placeholders (field_int k n) = true.
Proof.
  unfold field_int. destruct (n =? 0); [reflexivity|].
  simpl. now rewrite FormatInt_nonempty.
Qed.

Lemma no_placeholders_field_strings (k : string) (l : list string) :
  no_placeholders (field_strings k l) = true.
Proof. now destruct l. Qed.

Lemma no_placeholders_field_number (k lit : string) :
  no_placeholders (field_number k lit) = true.
Proof. unfold field_number. now destruct lit. Qed.

Lemma no_placeholders_field_array (k : string) (js : list json) :
  no_placeholders (field_array k js) = true.
Proof. now destruct js. Qed.

Create Rewrite HintDb members.
Create Rewrite HintDb keys.

#[local] Hint Rewrite no_placeholders_app no_placeholders_field_string
  no_placeholders_field_int no_placeholders_field_strings
  no_placeholders_field_number no_placeholders_field_array : members.

#[local] Hint Rewrite map_app set_keys_cons keys_field_string keys_field_int
  keys_field_strings keys_field_number : keys.

(** An integer field that is written never shows the literal [0]. *)
Lemma field_int_not_zero (k : string) (n : Z) (v : json) :
  In (k, v) (field_int k n) -> v <> JNumber "0".
Proof.
  unfold field_int. destruct (n =? 0) eqn:E; simpl; [tauto|].
  intros [H | []] C. injection H as H. subst v. injection C as C.
  apply (FormatInt_inj n 0) in C. subst n. discriminate E.
Qed.

Lemma Attachment_members_keys (a : Attachment) :
  map fst (Attachment_members a) = set_keys (Attachment_fields a).
Proof.
  unfold Attachment_members, Attachment_fields.
  autorewrite with keys. unfold set_keys at 1; simpl filter; simpl map.
  now rewrite List.app_nil_r.
Qed.

Lemma Attachment_members_set (a : Attachment) :
  no_placeholders (Attachment_members a) = true.
Proof. unfold Attachment_members. now autorewrite with members. Qed.

(** The attachments array: one object per attachment, in the same order. *)
Lemma marshal_Attachments_inr (l : list Attachment) (js : list json) :
  marshal_Attachments l = inr js ->
  js = map (fun a => JObject (Attachment_members a)) l.
Proof.
  revert js. induction l as [|a l IH]; simpl; intros js H.
  - now injection H as <-.
  - unfold marshal_Attachment in H.
    destruct (negb (is_empty_string (TS a)) && negb (isValidNumber (TS a)));
      [discriminate|].
    destruct (marshal_Attachments l) as [e|js'] eqn:E; [discriminate|].
    injection H as <-. f_equal. now apply IH.
Qed.

Lemma marshal_Attachments_total (l : list Attachment) :
  forallb TS_ok l = true ->
  marshal_Attachments l = inr (map (fun a => JObject (Attachment_members a)) l).
Proof.
  induction l as [|a l IH]; simpl; [reflexivity|].
  intro H. apply andb_true_iff in H as [Ha Hl].
  unfold marshal_Attachment, TS_ok in *.
  destruct (is_empty_string (TS a)), (isValidNumber (TS a));
    try discriminate; simpl; now rewrite IH.
Qed.

(** C7: for every message that [json.Marshal] encodes, the wire form is an
    object whose keys are exactly the keys of the fields that are set
    (non-empty string, non-zero integer, non-empty slice), in declaration
    order, with no [null] and no empty value among its members; the same
    holds of every attachment object; and the attachments array holds the
    encodings of the attachments in insertion order. *)
Theorem wire_form_omits_unset_fields (m : SlackMessage) (body : json) :
  json_Marshal m = inr body ->
  exists members atts,
    body = JObject members /\
    map fst members = set_keys (SlackMessage_fields m) /\
    no_placeholders members = true /\
    atts = map (fun a => JObject (Attachment_members a)) (Attachments m) /\
    (forall i a, nth_error (Attachments m) i = Some a ->
                 nth_error atts i = Some (JObject (Attachment_members a))) /\
    (Attachments m <> [] -> In ("attachments", JArray atts) members) /\
    (forall a, In a (Attachments m) ->
       map fst (Attachment_members a) = set_keys (Attachment_fields a) /\
       no_placeholders (Attachment_members a) = true /\
       forall v, In ("id", v) (Attachment_members a) -> v <> JNumber "0").
Proof.
  unfold json_Marshal. intro H.
  destruct (marshal_Attachments (Attachments m)) as [e|atts] eqn:E;
    [discriminate|].
  injection H as <-.
  pose proof (marshal_Attachments_inr _ _ E) as Hatts.
  eexists. exists atts. split; [reflexivity|].
  repeat split.
  - unfold SlackMessage_fields. autorewrite with keys.
    rewrite (keys_field_array "attachments" (Attachments m) atts)
      by (subst atts; apply length_map).
    unfold set_keys at 1; simpl filter; simpl map. now rewrite List.app_nil_r.
  - now autorewrite with members.
  - exact Hatts.
  - intros i a Hi. subst atts. rewrite nth_error_map, Hi. reflexivity.
  - intro Hne. rewrite !in_app_iff. do 4 right.
    destruct (Attachments m) as [|a0 l]; [congruence|].
    subst atts. simpl. now left.
  - apply Attachment_members_keys.
  - apply Attachment_members_set.
  - intros v Hin. unfold Attachment_members in Hin.
    rewrite !in_app_iff in Hin.
    repeat match goal with
           | H : _ \/ _ |- _ => destruct H as [H|H]
           end;
      try (now apply (field_int_not_zero "id" (ID a)));
      exfalso; revert Hin;
      unfold field_string, field_strings, field_number;
      repeat match goal with
             | |- context [is_empty_string ?s] => destruct (is_empty_string s)
             | |- context [match ?l with [] => _ | _ => _ end] => destruct l
             end; simpl; intros []; try discriminate; try contradiction.
Qed.

(** ** The delivery routine *)

Section DeliveryProperties.

Variable ok : string.
Variable w : World.

Lemma TimeOut_writes_app (a b : list Event) :
  TimeOut_writes (a ++ b) = TimeOut_writes a ++ TimeOut_writes b.
Proof.
  induction a as [|e a IH]; simpl; [reflexivity|].
  destruct e; simpl; now rewrite IH.
Qed.

Lemma instant_log (e : Event) (st : State) : instant (log e st) = S (instant st).
Proof. unfold instant, log. simpl. rewrite length_app. simpl. lia. Qed.

(** When the four stages succeed the routine returns [nil], whatever the
    body says, after releasing the body. *)
Lemma sendHTTPRequest_exchange (st : State) (m : SlackMessage)
    (req : Request) (resp : Response) (buf : string) :
  exchange w st m req resp buf ->
  sendHTTPRequest ok w st m
  = (None, log EvClose (log EvReadAll (log (EvDo req) (default_TimeOut st)))).
Proof.
  intros [body req0 resp0 buf0 Hm Hr Hd Hb].
  unfold sendHTTPRequest. rewrite Hm, Hr, Hd, Hb.
  now destruct (negb (String.eqb buf0 ok)).
Qed.

(** Conversely [nil] is returned only after the four stages succeeded. *)
Lemma sendHTTPRequest_nil (st : State) (m : SlackMessage) :
  fst (sendHTTPRequest ok w st m) = None ->
  exists req resp buf, exchange w st m req resp buf.
Proof.
  unfold sendHTTPRequest.
  destruct (json_Marshal m) as [e|body] eqn:Hm; [discriminate|].
  destruct (NewRequest w MethodPost (WebHookURL (sc st)) body) as [e|req] eqn:Hr;
    [discriminate|].
  destruct (Do w (instant (default_TimeOut st))
               (Header_Add req "Content-Type" "application/json"))
    as [e|resp] eqn:Hd; [discriminate|].
  destruct (Body_ReadAll resp) as [e|buf] eqn:Hb; [discriminate|].
  intros _. do 3 eexists. econstructor; eassumption.
Qed.

(** When the body cannot be read the routine returns the read error at
    once; the history ends with the read and holds no [Close]. *)
Lemma sendHTTPRequest_read_error (st : State) (m : SlackMessage)
    (body : json) (req : Request) (resp : Response) (e : Err) :
  json_Marshal m = inr body ->
  NewRequest w MethodPost (WebHookURL (sc st)) body = inr req ->
  Do w (instant (default_TimeOut st))
     (Header_Add req "Content-Type" "application/json") = inr resp ->
  Body_ReadAll resp = inl e ->
  sendHTTPRequest ok w st m
  = (Some e,
     log EvReadAll
         (log (EvDo (Header_Add req "Content-Type" "application/json"))
              (default_TimeOut st))).
Proof.
  intros Hm Hr Hd Hb. unfold sendHTTPRequest. now rewrite Hm, Hr, Hd, Hb.
Qed.

Lemma trace_log (e : Event) (st : State) : trace (log e st) = trace st ++ [e].
Proof. reflexivity. Qed.

Lemma sc_log (e : Event) (st : State) : sc (log e st) = sc st.
Proof. reflexivity. Qed.

Lemma same_configuration_refl (c : SlackClient) : same_configuration c c.
Proof. now unfold same_configuration. Qed.

Lemma TimeOut_step_refl (c : SlackClient) : TimeOut_step c c [].
Proof.
  unfold TimeOut_step. destruct (TimeOut c =? 0) eqn:E; auto.
  apply Z.eqb_eq in E. auto.
Qed.

(** What the defaulting step does to the client and to the history. *)
Lemma default_TimeOut_effect (st : State) :
  let st' := default_TimeOut st in
  same_configuration (sc st) (sc st') /\
  if TimeOut (sc st) =? 0
  then TimeOut (sc st') = DefaultSlackTimeout /\
       trace st' = trace st ++ [EvSetTimeOut DefaultSlackTimeout]
  else st' = st.
Proof.
  unfold default_TimeOut, same_configuration.
  destruct (TimeOut (sc st) =? 0); simpl; auto.
Qed.

Ltac finish_effect :=
  cbv zeta; cbn [snd fst];
  rewrite ?trace_log, ?sc_log;
  match goal with
  | Htr : trace (default_TimeOut _) = _ |- _ => rewrite Htr
  end;
  rewrite <- ?List.app_assoc, TimeOut_writes_app;
  cbn [TimeOut_writes app]; rewrite List.app_nil_r;
  split; [reflexivity|]; split; [assumption|]; split; [assumption|].

(** What one run of the routine does to the client and to the history: the
    configuration is kept, the history only grows, [TimeOut] is written at
    most once and only when it was zero, and a request that is submitted
    carries the encoded message to the configured URL. *)
Lemma sendHTTPRequest_effect (st : State) (m : SlackMessage) :
  exists evs,
    let st' := snd (sendHTTPRequest ok w st m) in
    trace st' = trace st ++ evs /\
    same_configuration (sc st) (sc st') /\
    TimeOut_step (sc st) (sc st') (TimeOut_writes evs) /\
    (forall req, In (EvDo req) evs ->
       json_Marshal m = inr (req_Body req) /\
       Method req = "POST" /\ URL req = WebHookURL (sc st) /\
       Header req = [("Content-Type", "application/json")]).
Proof.
  unfold sendHTTPRequest.
  destruct (json_Marshal m) as [e|body] eqn:Hm.
  { exists []. simpl. rewrite List.app_nil_r.
    split; [reflexivity|]. split; [apply same_configuration_refl|].
    split; [apply TimeOut_step_refl|]. contradiction. }
  unfold NewRequest.
  destruct (url_error w (WebHookURL (sc st))) as [e|] eqn:Hu.
  { exists []. simpl. rewrite List.app_nil_r.
    split; [reflexivity|]. split; [apply same_configuration_refl|].
    split; [apply TimeOut_step_refl|]. contradiction. }
  pose proof (default_TimeOut_effect st) as [Hcfg Hd]. cbv zeta in Hcfg, Hd.
  set (req := Header_Add _ _ _).
  assert (Hreq : forall r, In (EvDo r) [EvDo req] \/ In (EvDo r) [EvDo req; EvReadAll]
                           \/ In (EvDo r) [EvDo req; EvReadAll; EvClose] ->
                 @inr Err json body = inr (req_Body r) /\ Method r = "POST" /\
                 URL r = WebHookURL (sc st) /\
                 Header r = [("Content-Type", "application/json")]).
  { simpl. intros r H.
    assert (E : r = req) by
      (repeat match goal with
              | H : _ \/ _ |- _ => destruct H as [H|H]
              end; try contradiction; try discriminate; congruence).
    subst r. now unfold req. }
  assert (Hev : exists pre,
             trace (default_TimeOut st) = trace st ++ pre /\
             TimeOut_step (sc st) (sc (default_TimeOut st)) (TimeOut_writes pre) /\
             forall tl r, In (EvDo r) (pre ++ tl) -> In (EvDo r) tl).
  { unfold TimeOut_step. destruct (TimeOut (sc st) =? 0) eqn:Ez.
    - destruct Hd as [Ht Htr]. exists [EvSetTimeOut DefaultSlackTimeout].
      repeat split; auto.
      simpl. intros tl r [H|H]; [discriminate|exact H].
    - rewrite Hd. exists []. rewrite List.app_nil_r. repeat split; auto. }
  destruct Hev as [pre [Htr [Hstep Hin]]].
  destruct (Do w (instant (default_TimeOut st)) req) as [e|resp] eqn:HDo.
  { exists (pre ++ [EvDo req]). finish_effect.
    intros r Hr. apply Hreq. left. eapply Hin. exact Hr. }
  destruct (Body_ReadAll resp) as [e|buf] eqn:Hb.
  { exists (pre ++ [EvDo req; EvReadAll]). finish_effect.
    intros r Hr. apply Hreq. right. left. eapply Hin. exact Hr. }
  exists (pre ++ [EvDo req; EvReadAll; EvClose]).
  destruct (negb (String.eqb buf ok)); finish_effect;
    intros r Hr; apply Hreq; right; right; eapply Hin; exact Hr.
Qed.

(** ** The public send methods *)

(** Every message a public send method builds is encoded without error:
    the only number literal in it is a formatted clock reading. *)
Lemma message_of_marshals (c : SlackClient) (now : Z) (call : Call) :
  exists body, json_Marshal (message_of c now call) = inr body.
Proof.
  destruct call; unfold json_Marshal; simpl Attachments;
    try (rewrite marshal_Attachments_total; [eexists; reflexivity|]);
    simpl; unfold TS_ok; simpl; now rewrite ?FormatInt_valid, ?orb_true_r.
Qed.

(** Every public send method hands its message to the delivery routine. *)
Lemma send_delivers (st : State) (call : Call) :
  send ok w st call
  = sendHTTPRequest ok w (prepared w st call)
      (message_of (sc st) (clock w (instant st)) call).
Proof. destruct call; reflexivity. Qed.

Lemma prepared_effect (st : State) (call : Call) :
  sc (prepared w st call) = sc st /\
  exists evs, trace (prepared w st call) = trace st ++ evs /\
              TimeOut_writes evs = [] /\
              forall req, ~ In (EvDo req) evs.
Proof.
  split; [now destruct call|].
  destruct call; simpl;
    try (exists [EvNow (clock w (instant st))]; repeat split; auto;
         intros req [H|[]]; discriminate).
  exists []. rewrite List.app_nil_r. repeat split; auto.
Qed.

Lemma TimeOut_step_trans (a b c : SlackClient) (w1 w2 : list Z) :
  TimeOut_step a b w1 -> TimeOut_step b c w2 -> TimeOut_step a c (w1 ++ w2).
Proof.
  unfold TimeOut_step.
  destruct (TimeOut a =? 0) eqn:Ea.
  - intros [[Hb ->] | [Hb ->]]; rewrite Hb.
    + simpl. auto.
    + change (DefaultSlackTimeout =? 0) with false.
      intros [Hc ->]. right. split; [exact Hc | reflexivity].
  - intros [Hb ->]. rewrite Hb, Ea. simpl. intros [Hc ->]. split; congruence.
Qed.

Lemma same_configuration_trans (a b c : SlackClient) :
  same_configuration a b -> same_configuration b c -> same_configuration a c.
Proof. unfold same_configuration. intuition congruence. Qed.

Lemma send_effect (st : State) (call : Call) :
  exists evs,
    let st' := snd (send ok w st call) in
    trace st' = trace st ++ evs /\
    same_configuration (sc st) (sc st') /\
    TimeOut_step (sc st) (sc st') (TimeOut_writes evs).
Proof.
  rewrite send_delivers.
  destruct (prepared_effect st call) as [Hsc [pre [Hpre [Hw _]]]].
  destruct (sendHTTPRequest_effect (prepared w st call)
              (message_of (sc st) (clock w (instant st)) call))
    as [evs [Htr [Hcfg [Hstep _]]]].
  cbv zeta in *. rewrite Hsc in *.
  exists (pre ++ evs). rewrite Htr, Hpre, List.app_assoc, TimeOut_writes_app, Hw.
  auto.
Qed.

Lemma run_effect (st : State) (calls : list Call) :
  exists evs,
    let st' := run ok w st calls in
    trace st' = trace st ++ evs /\
    same_configuration (sc st) (sc st') /\
    TimeOut_step (sc st) (sc st') (TimeOut_writes evs).
Proof.
  revert st. induction calls as [|c calls IH]; intro st; simpl.
  - exists []. rewrite List.app_nil_r.
    split; [reflexivity|]. split; [apply same_configuration_refl|].
    apply TimeOut_step_refl.
  - destruct (send_effect st c) as [e1 [H1 [C1 S1]]].
    destruct (IH (snd (send ok w st c))) as [e2 [H2 [C2 S2]]].
    cbv zeta in *.
    exists (e1 ++ e2). rewrite H2, H1, List.app_assoc, TimeOut_writes_app.
    split; [reflexivity|].
    split; [eapply same_configuration_trans; eassumption|].
    eapply TimeOut_step_trans; eassumption.
Qed.

(** Every public send method returns [nil] once the four stages succeed,
    whether or not the body is the success marker. *)
Lemma send_exchange_returns_nil (st : State) (call : Call)
    (req : Request) (resp : Response) (buf : string) :
  exchange w (prepared w st call)
           (message_of (sc st) (clock w (instant st)) call) req resp buf ->
  fst (send ok w st call) = None.
Proof.
  intro Hx. rewrite send_delivers.
  now rewrite (sendHTTPRequest_exchange _ _ _ _ _ Hx).
Qed.

(** C2: in the delivery routine as written, when serialization, request
    construction, submission and the body read all succeed and the body
    differs from the success marker, the value returned is the [err] left by
    the last successful stage, which is [nil]: the caller receives [nil]. *)
Theorem sendHTTPRequest_mismatch_returns_nil
    (st : State) (m : SlackMessage) (req : Request) (resp : Response)
    (buf : string) :
  exchange w st m req resp buf ->
  buf <> ok ->
  String.eqb buf ok = false /\
  fst (sendHTTPRequest ok w st m) = None.
Proof.
  intros Hx Hne. split.
  - now apply String.eqb_neq.
  - now rewrite (sendHTTPRequest_exchange _ _ _ _ _ Hx).
Qed.

(** C3: over any sequence of sends on one client, the fields other than
    [TimeOut] keep their values; [TimeOut] is written only if it was zero,
    then at most once and with the 5-second default; a client whose
    [TimeOut] is non-zero keeps it and sees no write. *)
Theorem sends_only_default_TimeOut (st : State) (calls : list Call) :
  exists evs,
    let st' := run ok w st calls in
    trace st' = trace st ++ evs /\
    client (sc st') = client (sc st) /\
    WebHookURL (sc st') = WebHookURL (sc st) /\
    UserName (sc st') = UserName (sc st) /\
    Channel (sc st') = Channel (sc st) /\
    (if TimeOut (sc st) =? 0
     then (TimeOut (sc st') = 0 /\ TimeOut_writes evs = []) \/
          (TimeOut (sc st') = 5 * 1000000000 /\
           TimeOut_writes evs = [5 * 1000000000])
     else TimeOut (sc st') = TimeOut (sc st) /\ TimeOut_writes evs = []).
Proof.
  destruct (run_effect st calls) as [evs [Htr [Hcfg Hstep]]].
  exists evs. cbv zeta in *.
  destruct Hcfg as (H1 & H2 & H3 & H4).
  repeat (split; [congruence|]).
  exact Hstep.
Qed.

(** C5: [SendJobNotification] reads the clock once and hands the delivery
    routine a message with exactly one attachment, whose color and text are
    the job's color and details and whose timestamp is that reading in
    decimal; the message text is the job's summary.  With a wall clock that
    does not run backwards, the reading lies between a reading taken
    immediately before the call and one taken immediately after it. *)
Theorem SendJobNotification_message (st : State) (job : SlackJobNotification) :
  (forall i j, (i <= j)%nat -> clock w i <= clock w j) ->
  let (before, st1) := time_Now_Unix w st in
  let st2 := snd (SendJobNotification ok w st1 job) in
  let (after, _) := time_Now_Unix w st2 in
  let now := clock w (instant st1) in
  let m := job_slackRequest (sc st1) job now in
  SendJobNotification ok w st1 job
  = sendHTTPRequest ok w (log (EvNow now) st1) m /\
  (exists a, Attachments m = [a] /\
             Color a = job_Color job /\
             att_Text a = job_Details job /\
             TS a = FormatInt now /\
             ParseInt (TS a) = Some now) /\
  msg_Text m = job_Text job /\
  before <= now <= after.
Proof.
  intro Hmono. unfold time_Now_Unix. cbv zeta.
  split; [reflexivity|].
  split.
  { eexists. split; [reflexivity|]. simpl. repeat split.
    apply ParseInt_FormatInt. }
  split; [reflexivity|].
  split.
  - apply Hmono. rewrite instant_log. lia.
  - apply Hmono.
    destruct (send_effect (log (EvNow (clock w (instant st))) st)
                (CallJobNotification job)) as [evs [Htr _]].
    cbv zeta in Htr. simpl send in Htr.
    unfold instant in *. rewrite Htr, length_app. lia.
Qed.

(** C6: [SendError], [SendInfo] and [SendWarning] send the job notification
    whose color is "danger", "good" and "warning", whose details text is the
    message, whose summary text is empty and whose icon is the first option
    when there is one and the default glyph otherwise. *)
Theorem severity_wrappers (st : State) (message : string) (options : list string) :
  SendError ok w st message options
  = SendJobNotification ok w st
      {| job_Color := "danger";
         job_IconEmoji := hd ":hammer_and_wrench" options;
         job_Details := message;
         job_Text := "" |} /\
  SendInfo ok w st message options
  = SendJobNotification ok w st
      {| job_Color := "good";
         job_IconEmoji := hd ":hammer_and_wrench" options;
         job_Details := message;
         job_Text := "" |} /\
  SendWarning ok w st message options
  = SendJobNotification ok w st
      {| job_Color := "warning";
         job_IconEmoji := hd ":hammer_and_wrench" options;
         job_Details := message;
         job_Text := "" |} /\
  funcName_sjn "danger" "disk full" []
  = {| job_Color := "danger";
       job_IconEmoji := ":hammer_and_wrench";
       job_Details := "disk full";
       job_Text := "" |} /\
  funcName_sjn "warning" "low memory" [":bell:"]
  = {| job_Color := "warning";
       job_IconEmoji := ":bell:";
       job_Details := "low memory";
       job_Text := "" |}.
Proof.
  unfold SendError, SendInfo, SendWarning, funcName, funcName_sjn.
  destruct options; repeat split.
Qed.

(** C8: when the message is encoded, the request is built and the
    transport's [Do] answers that request with an error, every public send
    method returns that very error. *)
Theorem send_returns_transport_error
    (st : State) (call : Call) (body : json) (req : Request) (e : Err) :
  json_Marshal (message_of (sc st) (clock w (instant st)) call) = inr body ->
  NewRequest w MethodPost (WebHookURL (sc st)) body = inr req ->
  Do w (instant (default_TimeOut (prepared w st call)))
     (Header_Add req "Content-Type" "application/json") = inl e ->
  fst (send ok w st call) = Some e.
Proof.
  intros Hm Hr Hd. rewrite send_delivers. unfold sendHTTPRequest.
  rewrite Hm. destruct (prepared_effect st call) as [-> _].
  now rewrite Hr, Hd.
Qed.

(** The four stages have one outcome: the body read is determined. *)
Lemma exchange_body_unique (st : State) (m : SlackMessage)
    (req req' : Request) (resp resp' : Response) (buf buf' : string) :
  exchange w st m req resp buf -> exchange w st m req' resp' buf' ->
  buf = buf'.
Proof.
  intros [body r0 p0 b0 Hm Hr Hd Hb] [body' r1 p1 b1 Hm' Hr' Hd' Hb'].
  rewrite Hm in Hm'. injection Hm' as <-.
  rewrite Hr in Hr'. injection Hr' as <-.
  rewrite Hd in Hd'. injection Hd' as <-.
  rewrite Hb in Hb'. now injection Hb'.
Qed.

(** A body other than the success marker: the routine returns [nil]
    although the message was not delivered. *)
Lemma sendHTTPRequest_nil_without_delivery (st : State) (m : SlackMessage)
    (req : Request) (resp : Response) (buf : string) :
  exchange w st m req resp buf -> buf <> ok ->
  fst (sendHTTPRequest ok w st m) = None /\ ~ delivered ok w st m.
Proof.
  intros Hx Hne. split.
  - now rewrite (sendHTTPRequest_exchange _ _ _ _ _ Hx).
  - intros (req' & resp' & Hx'). apply Hne.
    exact (exchange_body_unique _ _ _ _ _ _ _ _ Hx Hx').
Qed.

(** A delivered message is answered by [nil]. *)
Lemma sendHTTPRequest_delivered (st : State) (m : SlackMessage) :
  delivered ok w st m -> fst (sendHTTPRequest ok w st m) = None.
Proof.
  intros (req & resp & Hx).
  now rewrite (sendHTTPRequest_exchange _ _ _ _ _ Hx).
Qed.

(** [SendSlackNotification] hands the delivery routine a message with no
    attachments, whose username and channel are the client's and whose text
    and icon are the request's; a request that goes out carries that
    message.  The method returns [nil] as soon as the message was encoded,
    the request built and submitted and the response body read, whether or
    not that body is the success marker, and only then. *)
Theorem SendSlackNotification_message (st : State) (sr : SimpleSlackRequest) :
  let m := simple_slackRequest (sc st) sr in
  let r := SendSlackNotification ok w st sr in
  r = sendHTTPRequest ok w st m /\
  Attachments m = [] /\
  Username m = UserName (sc st) /\
  msg_Channel m = Channel (sc st) /\
  msg_Text m = sr_Text sr /\
  IconEmoji m = sr_IconEmoji sr /\
  (exists evs, trace (snd r) = trace st ++ evs /\
     forall req, In (EvDo req) evs -> json_Marshal m = inr (req_Body req)) /\
  (fst r = None <-> exists req resp buf, exchange w st m req resp buf).
Proof.
  cbv zeta. repeat (split; [reflexivity|]). split.
  - destruct (sendHTTPRequest_effect st (simple_slackRequest (sc st) sr))
      as [evs [Htr [_ [_ Hreq]]]].
    exists evs. split; [exact Htr|]. intros req Hin. now apply Hreq.
  - unfold SendSlackNotification. split.
    + apply sendHTTPRequest_nil.
    + intros (req & resp & buf & Hx).
      now rewrite (sendHTTPRequest_exchange _ _ _ _ _ Hx).
Qed.

(** C10: with no option the icon is the literal [:hammer_and_wrench], which
    opens with a colon and does not close with one, unlike [:bell:]. *)
Theorem default_icon_literal (color message : string) :
  job_IconEmoji (funcName_sjn color message []) = ":hammer_and_wrench" /\
  get 0 ":hammer_and_wrench" = Some ":"%char /\
  get (String.length ":hammer_and_wrench" - 1) ":hammer_and_wrench" = Some "h"%char /\
  is_shortcode (job_IconEmoji (funcName_sjn color message [])) = false /\
  is_shortcode ":bell:" = true.
Proof. repeat split. Qed.

End DeliveryProperties.

(** ** Concrete runs *)

(** C1: with a response body other than the success marker every public
    send method returns [nil], where a non-nil error is required: the
    mismatch branch returns the [err] of the body read, which is [nil]. *)
Lemma mismatch_is_not_reported :
  let w := world_answering (inr "invalid_payload") in
  String.eqb "invalid_payload" "ok" = false /\
  fst (SendSlackNotification "ok" w st0 sr0) = None /\
  fst (SendJobNotification "ok" w st0 job0) = None /\
  fst (SendError "ok" w st0 "disk full" []) = None /\
  fst (SendInfo "ok" w st0 "deployed" []) = None /\
  fst (SendWarning "ok" w st0 "low memory" [":bell:"]) = None.
Proof. repeat split. Qed.

(** C9: [SendSlackNotification] builds the message the claim describes
    (no attachments, username and channel of the client, text and icon of
    the request) and submits it, but it does not return [nil] exactly when
    delivery succeeds: when the webhook answers with a body other than the
    success marker the message is not delivered and the method returns
    [nil] all the same. *)
Lemma SendSlackNotification_nil_without_delivery :
  let w := world_answering (inr "no_service") in
  let m := simple_slackRequest (sc st0) sr0 in
  let r := SendSlackNotification "ok" w st0 sr0 in
  m = {| Username := "notify"; IconEmoji := ":wave:"; msg_Channel := "#ops";
         msg_Text := "hello"; Attachments := [] |} /\
  (exists body, json_Marshal m = inr body /\
                submitted (trace (snd r)) = [request_of (sc st0) body]) /\
  String.eqb "no_service" "ok" = false /\
  ~ delivered "ok" w st0 m /\
  fst r = None.
Proof.
  cbv zeta. split; [reflexivity|].
  split; [eexists; split; reflexivity|].
  split; [reflexivity|].
  split; [|reflexivity].
  assert (Hx : exists req resp,
             exchange (world_answering (inr "no_service")) st0
               (simple_slackRequest (sc st0) sr0) req resp "no_service")
    by (do 2 eexists; econstructor; reflexivity).
  destruct Hx as (req & resp & Hx).
  apply (sendHTTPRequest_nil_without_delivery "ok" _ st0 _ req resp _ Hx).
  discriminate.
Qed.

(** C4: when the transport answers and reading the body fails, the routine
    returns the read error before the deferred [Close] is registered: the
    body is submitted for and read from, and never released. *)
Lemma read_error_leaves_body_open :
  let w := world_answering (inl (External "unexpected EOF")) in
  let r := sendHTTPRequest "ok" w st0 (simple_slackRequest client0 sr0) in
  fst r = Some (External "unexpected EOF") /\
  (exists req, trace (snd r)
               = [EvSetTimeOut DefaultSlackTimeout; EvDo req; EvReadAll]) /\
  closed (trace (snd r)) = false /\
  closed (trace (snd (SendSlackNotification "ok" w st0 sr0))) = false /\
  closed (trace (snd (SendJobNotification "ok" w st0 job0))) = false /\
  closed (trace (snd (SendError "ok" w st0 "disk full" []))) = false /\
  closed (trace (snd (SendInfo "ok" w st0 "deployed" []))) = false /\
  closed (trace (snd (SendWarning "ok" w st0 "low memory" [":bell:"]))) = false.
Proof.
  cbv zeta. split; [reflexivity|]. split; [eexists; reflexivity|].
  repeat split.
Qed.

Lemma sendHTTPRequest_mismatch_returns_nil_witness :
  let w := world_answering (inr "invalid_payload") in
  let m := simple_slackRequest client0 sr0 in
  exists req resp,
    exchange w st0 m req resp "invalid_payload" /\
    "invalid_payload" <> "ok" /\
    String.eqb "invalid_payload" "ok" = false /\
    fst (sendHTTPRequest "ok" w st0 m) = None.
Proof.
  cbv zeta.
  assert (Hx : exists req resp,
             exchange (world_answering (inr "invalid_payload")) st0
               (simple_slackRequest client0 sr0) req resp "invalid_payload")
    by (do 2 eexists; econstructor; reflexivity).
  destruct Hx as (req & resp & Hx).
  exists req, resp. split; [exact Hx|]. split; [discriminate|].
  apply (sendHTTPRequest_mismatch_returns_nil "ok" _ st0 _ req resp _ Hx).
  discriminate.
Defined.

Lemma clock0_monotone (i j : nat) : (i <= j)%nat -> clock0 i <= clock0 j.
Proof. unfold clock0. lia. Qed.

Lemma SendJobNotification_message_witness :
  let w := world_answering (inr "ok") in
  (forall i j, (i <= j)%nat -> clock w i <= clock w j) /\
  (exists a, Attachments (job_slackRequest client0 job0 1700000001) = [a] /\
             TS a = "1700000001") /\
  1700000000 <= 1700000001 <= 1700000006.
Proof.
  cbv zeta. split; [intros i j Hij; simpl; unfold clock0; lia|].
  pose proof (SendJobNotification_message "ok" (world_answering (inr "ok"))
                st0 job0
                (fun i j Hij => clock0_monotone i j Hij)) as H.
  vm_compute in H.
  destruct H as (_ & (a & Ha & _ & _ & Hts & _) & _ & Hle).
  split.
  - exists a. split; [exact Ha | exact Hts].
  - exact Hle.
Defined.

Lemma send_returns_transport_error_witness :
  let e := External "dial tcp: i/o timeout" in
  let w := world_failing e in
  let call := CallError "disk full" [] in
  exists body req,
    json_Marshal (message_of (sc st0) (clock w (instant st0)) call) = inr body /\
    NewRequest w MethodPost (WebHookURL (sc st0)) body = inr req /\
    Do w (instant (default_TimeOut (prepared w st0 call)))
       (Header_Add req "Content-Type" "application/json") = inl e /\
    fst (send "ok" w st0 call) = Some e.
Proof.
  cbv zeta. do 2 eexists.
  split; [reflexivity|]. split; [reflexivity|]. split; [reflexivity|].
  eapply (send_returns_transport_error "ok"
            (world_failing (External "dial tcp: i/o timeout")) st0
            (CallError "disk full" [])); reflexivity.
Defined.

Lemma wire_form_omits_unset_fields_witness :
  let m := job_slackRequest client0 (funcName_sjn "danger" "disk full" [])
                            1700000000 in
  exists body members,
    json_Marshal m = inr body /\
    body = JObject members /\
    map fst members = ["username"; "icon_emoji"; "channel"; "attachments"] /\
    no_placeholders members = true.
Proof.
  cbv zeta.
  destruct (wire_form_omits_unset_fields
              (job_slackRequest client0 (funcName_sjn "danger" "disk full" [])
                                1700000000)
              _ eq_refl)
    as (members & atts & Hb & Hk & Hp & _).
  eexists. exists members.
  split; [reflexivity|]. split; [exact Hb|]. split; [exact Hk | exact Hp].
Defined.

(** The payload of [SendError("disk full")] at clock reading 1700000000:
    the empty summary and the unset attachment fields leave no trace. *)
Example SendError_payload :
  json_Marshal (message_of client0 1700000000 (CallError "disk full" []))
  = inr (JObject
           [ ("username", JString "notify");
             ("icon_emoji", JString ":hammer_and_wrench");
             ("channel", JString "#ops");
             ("attachments",
              JArray [ JObject [ ("color", JString "danger");
                                 ("text", JString "disk full");
                                 ("ts", JNumber "1700000000") ] ]) ]).
Proof. reflexivity. Qed.

(** A body equal to the success marker: [nil], and the body is released. *)
Example acknowledged_send :
  let r := SendWarning "ok" (world_answering (inr "ok")) st0 "low memory" [":bell:"] in
  fst r = None /\ closed (trace (snd r)) = true /\
  TimeOut (sc (snd r)) = 5000000000.
Proof. repeat split. Qed.

(** An explicit timeout survives a send untouched. *)
Example explicit_timeout_kept :
  let c := mkSlackClient 1 "https://hooks.slack.com/services/T000/B000/XXXX"
                         "notify" "#ops" (30 * Second) in
  let st' := run "ok" (world_answering (inr "ok")) (mkState c [])
                 [CallInfo "deployed" []; CallSlackNotification sr0] in
  TimeOut (sc st') = 30 * Second /\ TimeOut_writes (trace st') = [].
Proof. repeat split. Qed.

(** A [json.Number] that is not a number literal makes [json.Marshal]
    fail; the public send methods never build one. *)
Example invalid_timestamp_rejected :
  json_Marshal
    (mkSlackMessage "" "" "" "x"
       [mkAttachment "" "" "" 0 "" "" "" "" "" "" "" "" "" "" "" [] "12a"])
  = inl (InvalidNumberLiteral "12a").
Proof. reflexivity. Qed.

(** ** Outcomes, requests and releases of a send *)

Lemma skipn_past (A : Type) (l evs : list A) :
  skipn (List.length l) (l ++ evs) = evs.
Proof. induction l as [|x l IH]; simpl; auto. Qed.

Lemma default_TimeOut_events (st : State) :
  trace (default_TimeOut st)
  = trace st ++ (if TimeOut (sc st) =? 0
                 then [EvSetTimeOut DefaultSlackTimeout] else []).
Proof.
  unfold default_TimeOut. destruct (TimeOut (sc st) =? 0); simpl; auto.
  now rewrite List.app_nil_r.
Qed.

Lemma sc_default_TimeOut (st : State) :
  sc (default_TimeOut st) = resolved (sc st).
Proof.
  unfold default_TimeOut, resolved.
  destruct (TimeOut (sc st) =? 0); simpl; auto.
  now destruct (sc st).
Qed.

(** The events one run of the delivery routine adds, stage by stage. *)
Lemma sendHTTPRequest_events (ok : string) (w : World) (st : State)
    (m : SlackMessage) :
  events_since (instant st) (snd (sendHTTPRequest ok w st m))
  = match json_Marshal m with
    | inl _ => []
    | inr body =>
        match url_error w (WebHookURL (sc st)) with
        | Some _ => []
        | None =>
            (if TimeOut (sc st) =? 0
             then [EvSetTimeOut DefaultSlackTimeout] else []) ++
            EvDo (request_of (sc st) body) ::
            match Do w (instant (default_TimeOut st))
                     (request_of (sc st) body) with
            | inl _ => []
            | inr resp =>
                EvReadAll ::
                match Body_ReadAll resp with
                | inl _ => []
                | inr _ => [EvClose]
                end
            end
        end
    end.
Proof.
  unfold events_since, sendHTTPRequest, NewRequest. unfold instant at 1.
  destruct (json_Marshal m) as [e|body]; cbn [snd].
  { now rewrite <- (List.app_nil_r (trace st)) at 2; rewrite skipn_past. }
  destruct (url_error w (WebHookURL (sc st))) as [e|]; cbn [snd].
  { now rewrite <- (List.app_nil_r (trace st)) at 2; rewrite skipn_past. }
  fold (request_of (sc st) body).
  pose proof (default_TimeOut_events st) as Hd.
  set (pre := if TimeOut (sc st) =? 0 then _ else _) in *.
  destruct (Do w (instant (default_TimeOut st))
              (request_of (sc st) body)) as [e|resp]; cbn [snd].
  { now rewrite trace_log, Hd, <- List.app_assoc, skipn_past. }
  destruct (Body_ReadAll resp) as [e|buf]; cbn [snd].
  { now rewrite !trace_log, Hd, <- !List.app_assoc, skipn_past. }
  destruct (negb (String.eqb buf ok)); cbn [snd];
    now rewrite !trace_log, Hd, <- !List.app_assoc, skipn_past.
Qed.

Lemma prepared_events (w : World) (st : State) (call : Call) :
  trace (prepared w st call) = trace st ++ clock_events w st call.
Proof. destruct call; simpl; auto. now rewrite List.app_nil_r. Qed.

Lemma sc_prepared (w : World) (st : State) (call : Call) :
  sc (prepared w st call) = sc st.
Proof. now destruct call. Qed.

Lemma send_events (ok : string) (w : World) (st : State) (call : Call) :
  events_since (instant st) (snd (send ok w st call))
  = clock_events w st call ++
    events_since (instant (prepared w st call)) (snd (send ok w st call)).
Proof.
  rewrite send_delivers.
  destruct (sendHTTPRequest_effect ok w (prepared w st call)
              (message_of (sc st) (clock w (instant st)) call))
    as [evs [Htr _]].
  cbv zeta in Htr.
  set (r := sendHTTPRequest _ _ _ _) in *.
  unfold events_since, instant.
  rewrite Htr, skipn_past, prepared_events, <- List.app_assoc.
  now rewrite skipn_past.
Qed.

Lemma closed_app (a b : list Event) :
  closed (a ++ b) = closed a || closed b.
Proof.
  induction a as [|e a IH]; simpl; [reflexivity|].
  now destruct e.
Qed.

Lemma submitted_app (a b : list Event) :
  submitted (a ++ b) = submitted a ++ submitted b.
Proof.
  induction a as [|e a IH]; simpl; [reflexivity|].
  destruct e; simpl; now rewrite ?IH.
Qed.

(** X1: the error a public send method returns is decided by the first
    stage that fails, in the order request construction, submission, body
    read; serialization never fails, and when no stage fails the result is
    [nil]. *)
Theorem send_outcome (ok : string) (w : World) (st : State) (call : Call) :
  exists body,
    json_Marshal (message_of (sc st) (clock w (instant st)) call) = inr body /\
    fst (send ok w st call)
    = match url_error w (WebHookURL (sc st)) with
      | Some e => Some e
      | None =>
          match Do w (instant (default_TimeOut (prepared w st call)))
                   (request_of (sc st) body) with
          | inl e => Some e
          | inr resp =>
              match Body_ReadAll resp with
              | inl e => Some e
              | inr _ => None
              end
          end
      end.
Proof.
  destruct (message_of_marshals (sc st) (clock w (instant st)) call)
    as [body Hm].
  exists body. split; [exact Hm|].
  rewrite send_delivers. unfold sendHTTPRequest, NewRequest.
  rewrite Hm, sc_prepared.
  destruct (url_error w (WebHookURL (sc st))); [reflexivity|].
  fold (request_of (sc st) body).
  destruct (Do w _ _) as [e|resp]; [reflexivity|].
  destruct (Body_ReadAll resp) as [e|buf]; [reflexivity|].
  now destruct (negb (String.eqb buf ok)).
Qed.

(** X2: the success marker has no influence on a run of the delivery
    routine: with any two markers the returned error, the client and the
    history are the same, for every message and for every public send. *)
Theorem success_marker_is_ignored (ok ok' : string) (w : World) (st : State) :
  (forall m, sendHTTPRequest ok w st m = sendHTTPRequest ok' w st m) /\
  (forall call, send ok w st call = send ok' w st call).
Proof.
  assert (H : forall st0 m, sendHTTPRequest ok w st0 m = sendHTTPRequest ok' w st0 m).
  { intros st0 m. unfold sendHTTPRequest.
    destruct (json_Marshal m); [reflexivity|].
    destruct (NewRequest w MethodPost (WebHookURL (sc st0)) j); [reflexivity|].
    destruct (Do w _ _) as [e|resp]; [reflexivity|].
    destruct (Body_ReadAll resp) as [e|buf]; [reflexivity|].
    now destruct (negb (String.eqb buf ok)), (negb (String.eqb buf ok')). }
  split; [apply H|].
  intro call. rewrite !send_delivers. apply H.
Qed.

(** X3: the response body is released during a run of the delivery
    routine exactly when the run returns [nil]; every run that returns an
    error leaves no [Close] behind, for every message and for every public
    send. *)
Theorem body_released_iff_nil (ok : string) (w : World) (st : State) :
  (forall m,
     closed (events_since (instant st) (snd (sendHTTPRequest ok w st m))) = true
     <-> fst (sendHTTPRequest ok w st m) = None) /\
  (forall call,
     closed (events_since (instant st) (snd (send ok w st call))) = true
     <-> fst (send ok w st call) = None).
Proof.
  assert (H : forall st0 m,
             closed (events_since (instant st0) (snd (sendHTTPRequest ok w st0 m))) = true
             <-> fst (sendHTTPRequest ok w st0 m) = None).
  { intros st0 m. rewrite sendHTTPRequest_events.
    unfold sendHTTPRequest, NewRequest.
    destruct (json_Marshal m) as [e|body]; [simpl; split; discriminate|].
    destruct (url_error w (WebHookURL (sc st0))); [simpl; split; discriminate|].
    fold (request_of (sc st0) body).
    rewrite closed_app.
    replace (closed (if TimeOut (sc st0) =? 0
                     then [EvSetTimeOut DefaultSlackTimeout] else []))
      with false by now destruct (TimeOut (sc st0) =? 0).
    destruct (Do w _ _) as [e|resp]; [simpl; split; discriminate|].
    destruct (Body_ReadAll resp) as [e|buf]; [simpl; split; discriminate|].
    destruct (negb (String.eqb buf ok)); simpl; split; reflexivity. }
  split; [apply H|].
  intro call. rewrite send_events, closed_app.
  replace (closed (clock_events w st call)) with false by now destruct call.
  rewrite send_delivers. apply H.
Qed.

(** X4: a public send submits no request when the webhook URL does not
    parse and exactly one request otherwise, whatever the transport
    answers: a POST to the client's URL whose only header is the JSON
    content type and whose body is the encoded message. *)
Theorem one_request_per_send (ok : string) (w : World) (st : State) (call : Call) :
  exists body,
    json_Marshal (message_of (sc st) (clock w (instant st)) call) = inr body /\
    submitted (events_since (instant st) (snd (send ok w st call)))
    = match url_error w (WebHookURL (sc st)) with
      | Some _ => []
      | None =>
          [ {| Method := "POST";
               URL := WebHookURL (sc st);
               Header := [("Content-Type", "application/json")];
               req_Body := body |} ]
      end.
Proof.
  destruct (message_of_marshals (sc st) (clock w (instant st)) call)
    as [body Hm].
  exists body. split; [exact Hm|].
  rewrite send_events, submitted_app.
  replace (submitted (clock_events w st call)) with (@nil Request)
    by now destruct call.
  rewrite send_delivers, sendHTTPRequest_events, Hm, sc_prepared.
  destruct (url_error w (WebHookURL (sc st))); [reflexivity|].
  rewrite submitted_app.
  replace (submitted (if TimeOut (sc st) =? 0
                      then [EvSetTimeOut DefaultSlackTimeout] else []))
    with (@nil Request) by now destruct (TimeOut (sc st) =? 0).
  destruct (Do w _ _) as [e|resp]; [reflexivity|].
  now destruct (Body_ReadAll resp).
Qed.

Lemma sc_send (ok : string) (w : World) (st : State) (call : Call) :
  sc (snd (send ok w st call))
  = match url_error w (WebHookURL (sc st)) with
    | Some _ => sc st
    | None => resolved (sc st)
    end.
Proof.
  destruct (message_of_marshals (sc st) (clock w (instant st)) call)
    as [body Hm].
  rewrite send_delivers. unfold sendHTTPRequest, NewRequest.
  rewrite Hm, sc_prepared.
  destruct (url_error w (WebHookURL (sc st))); cbn [snd];
    [apply sc_prepared|].
  pose proof (sc_default_TimeOut (prepared w st call)) as Hd.
  rewrite sc_prepared in Hd.
  destruct (Do w _ _) as [e|resp]; cbn [snd]; [now rewrite sc_log|].
  destruct (Body_ReadAll resp) as [e|buf]; cbn [snd]; [now rewrite !sc_log|].
  destruct (negb (String.eqb buf ok)); cbn [snd]; now rewrite !sc_log.
Qed.

Lemma resolved_idem (c : SlackClient) : resolved (resolved c) = resolved c.
Proof.
  unfold resolved. simpl. f_equal.
  destruct (TimeOut c =? 0) eqn:E; [reflexivity|]. now rewrite E.
Qed.

(** X5: the client after any sequence of public sends: untouched when
    there was no send or the webhook URL does not parse; otherwise the
    same client with a zero [TimeOut] replaced by the default, whatever the
    transport answered and however many sends followed. *)
Theorem client_after_sends (ok : string) (w : World) (st : State)
    (calls : list Call) :
  sc (run ok w st calls)
  = match calls with
    | [] => sc st
    | _ :: _ =>
        match url_error w (WebHookURL (sc st)) with
        | Some _ => sc st
        | None =>
            {| client := client (sc st);
               WebHookURL := WebHookURL (sc st);
               UserName := UserName (sc st);
               Channel := Channel (sc st);
               TimeOut := if TimeOut (sc st) =? 0
                          then 5 * 1000000000 else TimeOut (sc st) |}
        end
    end.
Proof.
  fold (resolved (sc st)).
  revert st. induction calls as [|c calls IH]; intro st; [reflexivity|].
  simpl run. rewrite IH. clear IH.
  pose proof (sc_send ok w st c) as Hs.
  destruct calls as [|c' calls].
  - exact Hs.
  - destruct (url_error w (WebHookURL (sc st))) as [e|] eqn:Hu; rewrite Hs.
    + now rewrite Hu.
    + change (WebHookURL (resolved (sc st))) with (WebHookURL (sc st)).
      rewrite Hu. change (resolved (resolved (sc st)) = resolved (sc st)).
      apply resolved_idem.
Qed.

(** ** Payloads of the public send methods *)

(** Encoding the one attachment of a job notification: its timestamp is a
    formatted integer, hence set and a valid literal. *)
Ltac encode_job :=
  unfold json_Marshal, job_slackRequest, job_attachment;
  cbn [Attachments marshal_Attachments];
  unfold marshal_Attachment, Attachment_members;
  cbn [TS Color Fallback CallbackID ID AuthorID AuthorName AuthorSubname
       AuthorLink AuthorIcon Title TitleLink Pretext att_Text ImageURL
       ThumbURL MarkdownIn Username IconEmoji msg_Channel msg_Text];
  unfold field_number;
  rewrite ?FormatInt_nonempty, ?FormatInt_valid;
  cbn [negb andb field_string field_int field_strings field_array
       is_empty_string Z.eqb app].

(** X6: the payload of [SendSlackNotification] never has an attachments
    member; the payload of a job notification always has an attachments
    array of exactly one object, which always carries the timestamp as a
    bare number and, besides it, only the color and the text, each when
    non-empty. *)
Theorem payloads (c : SlackClient) (sr : SimpleSlackRequest)
    (job : SlackJobNotification) (now : Z) :
  json_Marshal (simple_slackRequest c sr)
  = inr (JObject (field_string "username" (UserName c) ++
                  field_string "icon_emoji" (sr_IconEmoji sr) ++
                  field_string "channel" (Channel c) ++
                  field_string "text" (sr_Text sr))) /\
  json_Marshal (job_slackRequest c job now)
  = inr (JObject
           (field_string "username" (UserName c) ++
            field_string "icon_emoji" (job_IconEmoji job) ++
            field_string "channel" (Channel c) ++
            field_string "text" (job_Text job) ++
            [ ("attachments",
               JArray [ JObject (field_string "color" (job_Color job) ++
                                 field_string "text" (job_Details job) ++
                                 [("ts", JNumber (FormatInt now))]) ]) ])).
Proof.
  split.
  - unfold json_Marshal, simple_slackRequest. simpl.
    now rewrite List.app_nil_r.
  - encode_job. reflexivity.
Qed.


(** ** No key is written twice *)

Lemma set_keys_incl (fields : list (string * gvalue)) (k : string) :
  In k (set_keys fields) -> In k (map fst fields).
Proof.
  unfold set_keys. rewrite !in_map_iff.
  intros [f [Hk Hf]]. apply filter_In in Hf as [Hf _]. now exists f.
Qed.

Lemma NoDup_set_keys (fields : list (string * gvalue)) :
  NoDup (map fst fields) -> NoDup (set_keys fields).
Proof.
  induction fields as [|[k v] fs IH]; simpl; intro H.
  - constructor.
  - inversion H as [|? ? Hnin Hnd]; subst.
    rewrite set_keys_cons. destruct (is_unset v); simpl; [now apply IH|].
    constructor; [|now apply IH].
    intro Hin. apply Hnin. now apply set_keys_incl.
Qed.

Ltac distinct_keys :=
  repeat (constructor; [simpl; intuition discriminate|]); constructor.

Lemma Attachment_keys_distinct (a : Attachment) :
  NoDup (map fst (Attachment_fields a)).
Proof. unfold Attachment_fields. cbn [map fst]. distinct_keys. Qed.

Lemma SlackMessage_keys_distinct (m : SlackMessage) :
  NoDup (map fst (SlackMessage_fields m)).
Proof. unfold SlackMessage_fields. cbn [map fst]. distinct_keys. Qed.

Lemma json_Marshal_keys (m : SlackMessage) (members : list (string * json)) :
  json_Marshal m = inr (JObject members) ->
  map fst members = set_keys (SlackMessage_fields m).
Proof.
  unfold json_Marshal. intro H.
  destruct (marshal_Attachments (Attachments m)) as [e|atts] eqn:E;
    [discriminate|].
  injection H as <-.
  apply marshal_Attachments_inr in E.
  unfold SlackMessage_fields. autorewrite with keys.
  rewrite (keys_field_array "attachments" (Attachments m) atts)
    by (subst atts; apply length_map).
  unfold set_keys at 1; simpl filter; simpl map. now rewrite List.app_nil_r.
Qed.

(** X9: in the wire form of a message, and in each of its attachment
    objects, no key occurs twice. *)
Theorem keys_written_once (m : SlackMessage) (body : json) :
  json_Marshal m = inr body ->
  exists members,
    body = JObject members /\
    NoDup (map fst members) /\
    forall a, In a (Attachments m) -> NoDup (map fst (Attachment_members a)).
Proof.
  intro H.
  assert (Hb : exists members, body = JObject members).
  { unfold json_Marshal in H.
    destruct (marshal_Attachments (Attachments m)); [discriminate|].
    injection H as <-. eexists; reflexivity. }
  destruct Hb as [members ->].
  exists members. split; [reflexivity|]. split.
  - rewrite (json_Marshal_keys m members H).
    apply NoDup_set_keys, SlackMessage_keys_distinct.
  - intros a _. rewrite Attachment_members_keys.
    apply NoDup_set_keys, Attachment_keys_distinct.
Qed.

Lemma keys_written_once_witness :
  let m := job_slackRequest client0 job0 1700000000 in
  exists body members,
    json_Marshal m = inr body /\
    body = JObject members /\
    NoDup (map fst members).
Proof.
  cbv zeta.
  destruct (keys_written_once (job_slackRequest client0 job0 1700000000)
              _ eq_refl) as (members & Hb & Hn & _).
  eexists. exists members.
  split; [reflexivity|]. split; [exact Hb | exact Hn].
Defined.
